(** * salt-hyperv-formula: the [hyperv] execution module

    A shallow embedding of [_modules/hyperv.py] and the properties of its
    command runner ([_psrun]) and of the call sites that validate their
    arguments ([add_vswitch], [remove_vswitch], [set_netadapter]).

    The module talks to the outside world through two capabilities of the
    [__salt__] dispatch table, [cmd.run] and [cmd.run_all], and through
    [json.loads].  The capabilities are parameters of the model; every call
    made through them is recorded in a trace, so that "nothing was
    executed" is a statement about that trace. *)

From Stdlib Require Import ZArith String Ascii List Bool Lia.
From stdpp Require Import base strings list gmap pretty.

Local Set Warnings "-register-all".
Local Open Scope string_scope.
Local Open Scope Z_scope.

(** ** Python values *)

(** The values the module handles: what [cmd.run_all] puts in its result
    dictionary, what [json.loads] decodes and what callers pass as keyword
    arguments.  A dictionary keeps its items in order, since [str] of a
    dictionary prints them in order. *)
Inductive pyval : Type :=
| PyNone
| PyBool (b : bool)
| PyInt (z : Z)
| PyStr (s : string)
| PyList (l : list pyval)
| PyDict (d : list (string * pyval)).

Inductive exn : Type :=
| SaltInvocationError (msg : string)
| CommandExecutionError (msg : string)
| KeyError (key : string)
| AttributeError (msg : string)
| TypeError (msg : string)
| ValueError (msg : string).

Inductive outcome (A : Type) : Type :=
| Return (a : A)
| Raise (e : exn).
Arguments Return {A} a.
Arguments Raise {A} e.

(** ** Strings, the way Python treats them *)

Module Py.

(** [q.join(l)] *)
Fixpoint join (sep : string) (l : list string) : string :=
  match l with
  | [] => ""
  | [x] => x
  | x :: r => x +:+ sep +:+ join sep r
  end.

Fixpoint startswith (p s : string) : bool :=
  match p, s with
  | EmptyString, _ => true
  | String a p', String b s' => Ascii.eqb a b && startswith p' s'
  | String _ _, EmptyString => false
  end.

(** [sub in s] on two strings: the substring test. *)
Fixpoint contains (sub s : string) : bool :=
  startswith sub s ||
  match s with
  | EmptyString => false
  | String _ s' => contains sub s'
  end.

Fixpoint has_char (c : ascii) (s : string) : bool :=
  match s with
  | EmptyString => false
  | String a s' => Ascii.eqb a c || has_char c s'
  end.

(** [s.lstrip()], [s.rstrip()] and [s.strip()] without argument: the
    characters removed are tab, line feed, vertical tab, form feed,
    carriage return and space. *)
Fixpoint lstrip (s : string) : string :=
  match s with
  | EmptyString => ""
  | String a s' => if Ascii.is_space a then lstrip s' else s
  end.

Definition rstrip (s : string) : string := String.rev (lstrip (String.rev s)).

Definition strip (s : string) : string := lstrip (rstrip s).

Definition len (s : string) : Z := Z.of_nat (String.length s).

(** *** [repr] *)

Definition squote : ascii := "'"%char.
Definition dquote : ascii := "034"%char.
Definition backslash : ascii := "\"%char.

Definition hex_digit (n : N) : ascii :=
  match n with
  | 0 => "0" | 1 => "1" | 2 => "2" | 3 => "3" | 4 => "4" | 5 => "5"
  | 6 => "6" | 7 => "7" | 8 => "8" | 9 => "9" | 10 => "a" | 11 => "b"
  | 12 => "c" | 13 => "d" | 14 => "e" | _ => "f"
  end%char%N.

(** One character of a quoted string: the quote in use and the backslash
    are escaped, tab, line feed and carriage return have their letter, and
    every other character outside the printable ASCII range is written as
    two hexadecimal digits. *)
Definition repr_char (q c : ascii) : string :=
  let n := N_of_ascii c in
  if Ascii.eqb c q || Ascii.eqb c backslash then String backslash (String c "")
  else if Ascii.eqb c "009" then "\t"
  else if Ascii.eqb c "010" then "\n"
  else if Ascii.eqb c "013" then "\r"
  else if ((n <? 32) || (127 <=? n))%N
       then String backslash
              (String "x" (String (hex_digit (n / 16)) (String (hex_digit (n mod 16)) "")))
  else String c "".

Fixpoint repr_chars (q : ascii) (s : string) : string :=
  match s with
  | EmptyString => ""
  | String c s' => repr_char q c +:+ repr_chars q s'
  end.

(** [repr(s)] for a string: single quotes, unless the text has a single
    quote and no double quote. *)
Definition repr_str (s : string) : string :=
  let q := if has_char squote s && negb (has_char dquote s) then dquote else squote in
  String q (repr_chars q s +:+ String q "").

Fixpoint repr (v : pyval) : string :=
  match v with
  | PyNone => "None"
  | PyBool true => "True"
  | PyBool false => "False"
  | PyInt z => pretty z
  | PyStr s => repr_str s
  | PyList l => "[" +:+ join ", " (List.map repr l) +:+ "]"
  | PyDict d =>
      "{" +:+ join ", " (List.map (fun kv => repr_str (fst kv) +:+ ": " +:+ repr (snd kv)) d)
          +:+ "}"
  end.

(** [str(v)], also what [%s] formats. *)
Definition str (v : pyval) : string :=
  match v with
  | PyStr s => s
  | _ => repr v
  end.

(** [v == n] for an integer literal [n]. *)
Definition eq_int (v : pyval) (n : Z) : bool :=
  match v with
  | PyInt z => z =? n
  | PyBool b => (if b then 1 else 0) =? n
  | _ => false
  end.

Definition is_list (v : pyval) : bool :=
  match v with
  | PyList _ => true
  | _ => false
  end.

(** *** Dictionaries with string keys, in insertion order *)

Fixpoint dict_get {V : Type} (d : list (string * V)) (k : string) : option V :=
  match d with
  | [] => None
  | (k', v) :: r => if String.eqb k' k then Some v else dict_get r k
  end.

(** [d[k] = v]: the value of an existing key is replaced in place, a new
    key goes last. *)
Fixpoint dict_set {V : Type} (d : list (string * V)) (k : string) (v : V)
  : list (string * V) :=
  match d with
  | [] => [(k, v)]
  | (k', v') :: r => if String.eqb k' k then (k', v) :: r else (k', v') :: dict_set r k v
  end.

Definition dict_values {K V : Type} (d : list (K * V)) : list V := List.map snd d.

(** [x in l] for a list of strings. *)
Definition in_list (x : string) (l : list string) : bool := existsb (String.eqb x) l.

End Py.

(** ** Effects: calls into the host, and exceptions *)

(** The two capabilities of the dispatch table that the module uses, with
    the arguments it passes them. *)
Inductive call : Type :=
| CmdRun (argv : list string) (python_shell : bool)
| CmdRunAll (cmd : string) (shell : string) (python_shell : bool).

(** [__salt__]: what the host answers.  A capability may itself raise.
    Every operation of the module calls each capability at most once, so an
    answer that depends on the arguments alone loses nothing. *)
Record Salt : Type := {
  cmd_run : list string → bool → outcome string;
  cmd_run_all : string → string → bool → outcome (list (string * pyval))
}.

(** A computation reads the calls made so far and returns its outcome with
    the calls made up to then. *)
Definition M (A : Type) : Type := list call → outcome A * list call.

#[global] Instance M_ret : MRet M := λ A a t, (Return a, t).

#[global] Instance M_bind : MBind M := λ A B f m t,
  match m t with
  | (Return a, t') => f a t'
  | (Raise e, t') => (Raise e, t')
  end.

Definition raise {A : Type} (e : exn) : M A := λ t, (Raise e, t).

(** A call into the host: recorded, then answered. *)
Definition invoke {A : Type} (c : call) (answer : outcome A) : M A :=
  λ t, (answer, (t ++ [c])%list).

(** [try: body / except: handler / else: orelse], with a bare [except]. *)
Definition try_except {A B : Type} (body : M A) (handler : exn → M B) (orelse : A → M B)
  : M B :=
  λ t, match body t with
       | (Return a, t') => orelse a t'
       | (Raise e, t') => handler e t'
       end.

Definition type_name (v : pyval) : string :=
  match v with
  | PyNone => "NoneType"
  | PyBool _ => "bool"
  | PyInt _ => "int"
  | PyStr _ => "str"
  | PyList _ => "list"
  | PyDict _ => "dict"
  end.

(** [d[k]] *)
Definition getitem (d : list (string * pyval)) (k : string) : M pyval :=
  match Py.dict_get d k with
  | Some v => mret v
  | None => raise (KeyError k)
  end.

(** [d[k]] for a dictionary keyed by integers. *)
Fixpoint subscript (d : list (Z * string)) (k : Z) : M string :=
  match d with
  | [] => raise (KeyError (pretty k))
  | (k', v) :: r => if k' =? k then mret v else subscript r k
  end.

(** [v.strip()]: only a string has the method. *)
Definition strip_method (v : pyval) : M string :=
  match v with
  | PyStr s => mret (Py.strip s)
  | _ => raise (AttributeError ("'" +:+ type_name v +:+ "' object has no attribute 'strip'"))
  end.

(** [v[k]] with a string for [k]: only a dictionary can be read that way. *)
Definition index (v : pyval) (k : string) : M pyval :=
  match v with
  | PyDict d => getitem d k
  | PyList _ => raise (TypeError "list indices must be integers or slices, not str")
  | PyStr _ => raise (TypeError "string indices must be integers")
  | _ => raise (TypeError ("'" +:+ type_name v +:+ "' object is not subscriptable"))
  end.

Fixpoint characters (s : string) : list pyval :=
  match s with
  | EmptyString => []
  | String c s' => PyStr (String c "") :: characters s'
  end.

(** [for x in v]: the items the loop visits.  A list gives its elements, a
    string its characters, a dictionary its keys; nothing else can be
    looped over. *)
Definition iterate (v : pyval) : M (list pyval) :=
  match v with
  | PyList l => mret l
  | PyStr s => mret (characters s)
  | PyDict d => mret (List.map (λ kv, PyStr (fst kv)) d)
  | _ => raise (TypeError ("'" +:+ type_name v +:+ "' object is not iterable"))
  end.

(** [for x in items: body], the body working on the variables [s]. *)
Fixpoint for_each {S : Type} (items : list pyval) (body : pyval → S → M S) (s : S)
  : M S :=
  match items with
  | [] => mret s
  | x :: rest => s' ← body x s; for_each rest body s'
  end.

(** Whether a trace holds a run of a command through [cmd.run_all]. *)
Definition is_execution (c : call) : bool :=
  match c with
  | CmdRunAll _ _ _ => true
  | CmdRun _ _ => false
  end.

Definition executed (t : list call) : bool := existsb is_execution t.

(** ** The module *)

Definition _SWITCH_TYPES : list (Z * string) :=
  [(0, "external"); (1, "internal"); (2, "private")].

Section Module.

Variable __salt__ : Salt.

(** [json.loads] on a string: the decoded value, or the decoder's error. *)
Variable json_loads : string → outcome pyval.

Definition loads (v : pyval) : M pyval :=
  match v with
  | PyStr s => λ t, (json_loads s, t)
  | _ => raise (TypeError ("the JSON object must be str, not '" +:+ type_name v +:+ "'"))
  end.

Definition _has_powershell : M bool :=
  out ← invoke (CmdRun ["where"; "powershell"] false)
               (cmd_run __salt__ ["where"; "powershell"] false);
  mret (Py.contains "powershell" out).

Definition _psrun (cmd : string) (json_output : bool) : M pyval :=
  ok ← _has_powershell;
  if (ok : bool) then
    let cmd := if json_output then cmd +:+ " | ConvertTo-Json -Depth 1 -Compress" else cmd in
    ret ← invoke (CmdRunAll cmd "powershell" false)
                 (cmd_run_all __salt__ cmd "powershell" false);
    rc ← getitem ret "retcode";
    if Py.eq_int rc 0 then
      ret ← (if json_output then
               out ← getitem ret "stdout";
               stripped ← strip_method out;
               let ret := if Py.len stripped =? 0
                          then Py.dict_set ret "stdout" (PyStr "[]") else ret in
               out ← getitem ret "stdout";
               decoded ← loads out;
               let ret := Py.dict_set ret "stdout" decoded in
               out ← getitem ret "stdout";
               mret (if negb (Py.is_list out)
                     then Py.dict_set ret "stdout" (PyList [out]) else ret)
             else mret ret);
      getitem ret "stdout"
    else raise (CommandExecutionError (Py.str (PyDict ret)))
  else mret PyNone.

Definition install (with_gui : pyval) : M pyval :=
  let features := ["Hyper-V"; "Hyper-V-Powershell"] in
  let features := match with_gui with
                  | PyBool true => (features ++ ["Hyper-V-Tools"])%list
                  | _ => features
                  end in
  _psrun ("Install-WindowsFeature " +:+ Py.join "," features) true.

(** [name] and [switchtype] are [None] or a string; [kwargs] holds the
    keyword arguments. *)
Definition add_vswitch (name switchtype : option string) (kwargs : gmap string pyval)
  : M bool :=
  let cmd := "New-VMSwitch" in
  match name with
  | Some name =>
    if 0 <? Py.len (Py.strip name) then
      let cmd := cmd +:+ " -Name " +:+ name in
      match switchtype with
      | Some switchtype =>
        if 0 <? Py.len (Py.strip switchtype) then
          if negb (Py.in_list switchtype (Py.dict_values _SWITCH_TYPES)) then
            raise (SaltInvocationError ("switchtype " +:+ switchtype +:+ " not supported"))
          else
            t0 ← subscript _SWITCH_TYPES 0;
            cmd ← (if String.eqb switchtype t0 then
                     match kwargs !! "interface" with
                     | None =>
                         raise (SaltInvocationError
                                  "no interface name specified for external vswitch")
                     | Some interface =>
                         mret (cmd +:+ " -NetAdapterName " +:+ Py.str interface)
                     end
                   else
                     t1 ← subscript _SWITCH_TYPES 1;
                     t2 ← subscript _SWITCH_TYPES 2;
                     if Py.in_list switchtype [t1; t2]
                     then mret (cmd +:+ " -SwitchType " +:+ switchtype)
                     else mret cmd);
            try_except (_psrun cmd true) (λ _, mret false) (λ _, mret true)
        else raise (SaltInvocationError "vswitch type not specified")
      | None => raise (SaltInvocationError "vswitch type not specified")
      end
    else raise (SaltInvocationError "vswitch name not specified")
  | None => raise (SaltInvocationError "vswitch name not specified")
  end.

Definition remove_vswitch (name : option string) (kwargs : gmap string pyval) : M bool :=
  let cmd := "Remove-VMSwitch -Force" in
  match name with
  | Some name =>
    if 0 <? Py.len (Py.strip name) then
      let cmd := cmd +:+ " -Name " +:+ name in
      try_except (_psrun cmd true) (λ _, mret false) (λ _, mret true)
    else raise (SaltInvocationError "vswitch name not specified")
  | None => raise (SaltInvocationError "vswitch name not specified")
  end.

Definition filter_properties : list (string * string) :=
  [("mac", "MacAddress"); ("name", "Name")].

Definition set_netadapter (tgt : pyval) (tgt_type : string) (kwargs : gmap string pyval)
  : M pyval :=
  match Py.dict_get filter_properties tgt_type with
  | None => raise (SaltInvocationError ("tgt_type " +:+ tgt_type +:+ " is not allowed"))
  | Some property =>
    let quote := String Py.dquote "" in
    let get_cmd := "Get-NetAdapter -Physical | Where {$_." +:+ property +:+ " -eq "
                   +:+ quote +:+ Py.str tgt +:+ quote +:+ "}" in
    let rename_cmd := match kwargs !! "name" with
                      | Some name =>
                          Some ("Rename-NetAdapter -NewName " +:+ Py.str name +:+ " -PassThru")
                      | None => None
                      end in
    let set_cmd := match kwargs !! "vlan" with
                   | Some vlan => Some ("Set-NetAdapter -VlanID " +:+ Py.str vlan +:+ " -PassThru")
                   | None => None
                   end in
    match rename_cmd, set_cmd with
    | Some rename_cmd, Some set_cmd =>
        _psrun (get_cmd +:+ " | " +:+ rename_cmd +:+ " | " +:+ set_cmd) true
    | Some rename_cmd, None => _psrun (get_cmd +:+ " | " +:+ rename_cmd) true
    | None, Some set_cmd => _psrun (get_cmd +:+ " | " +:+ set_cmd) true
    | None, None => mret (PyBool false)
    end
  end.

Definition vswitchs (kwargs : gmap string pyval) : M pyval :=
  let switchs := [] in
  found ← _psrun "Get-VMSwitch" true;
  items ← iterate found;
  switchs ← for_each items
    (λ switch switchs,
       name ← index switch "Name";
       computername ← index switch "ComputerName";
       switchtype ← index switch "SwitchType";
       netadapter ← index switch "NetAdapterInterfaceDescription";
       mret (switchs ++ [PyDict [("name", name); ("computername", computername);
                                 ("type", switchtype); ("netadapter", netadapter)]])%list)
    switchs;
  mret (PyList switchs).

Definition netadapters (all : pyval) (kwargs : gmap string pyval) : M pyval :=
  let args := match all with
              | PyBool false => " -Physical"
              | _ => ""
              end in
  let adapters := [] in
  found ← _psrun ("Get-NetAdapter" +:+ args) true;
  items ← iterate found;
  adapters ← for_each items
    (λ adapter adapters,
       name ← index adapter "Name";
       description ← index adapter "InterfaceDescription";
       mac ← index adapter "MacAddress";
       mret (adapters ++ [PyDict [("name", name); ("description", description);
                                  ("mac", mac)]])%list)
    adapters;
  mret (PyList adapters).

Definition vms (kwargs : gmap string pyval) : M pyval :=
  let vms := [] in
  found ← _psrun "Get-VM" true;
  items ← iterate found;
  vms ← for_each items
    (λ vm vms,
       name ← index vm "Name";
       state ← index vm "State";
       mret (vms ++ [PyDict [("name", name); ("state", state)]])%list)
    vms;
  mret (PyList vms).

End Module.

(** ** A decoder for a fragment of JSON

    [json.loads] is a parameter of the model.  To run the module on concrete
    hosts it is instantiated with this decoder, which reads [null], [true],
    [false], integers, strings with the one-letter escapes, arrays and
    objects, and answers [ValueError] on anything else. *)

Module Json.

Definition is_ws (c : ascii) : bool :=
  Ascii.eqb c " " || Ascii.eqb c "009" || Ascii.eqb c "010" || Ascii.eqb c "013".

Fixpoint skip_ws (s : string) : string :=
  match s with
  | EmptyString => ""
  | String c r => if is_ws c then skip_ws r else s
  end.

Definition digit (c : ascii) : option Z :=
  let n := Z.of_N (N_of_ascii c) in
  if (48 <=? n) && (n <=? 57) then Some (n - 48) else None.

Fixpoint digits (acc : Z) (s : string) : Z * string :=
  match s with
  | EmptyString => (acc, "")
  | String c r => match digit c with
                  | Some d => digits (10 * acc + d) r
                  | None => (acc, s)
                  end
  end.

Definition number (s : string) : option (Z * string) :=
  match s with
  | EmptyString => None
  | String c r => match digit c with
                  | Some d => Some (digits d r)
                  | None => None
                  end
  end.

Definition unescape (c : ascii) : option ascii :=
  if Ascii.eqb c Py.dquote then Some Py.dquote
  else if Ascii.eqb c Py.backslash then Some Py.backslash
  else if Ascii.eqb c "/" then Some "/"%char
  else if Ascii.eqb c "n" then Some "010"%char
  else if Ascii.eqb c "r" then Some "013"%char
  else if Ascii.eqb c "t" then Some "009"%char
  else if Ascii.eqb c "b" then Some "008"%char
  else if Ascii.eqb c "f" then Some "012"%char
  else None.

(** What follows the keyword [p] at the head of [s]. *)
Fixpoint after (p s : string) : option string :=
  match p, s with
  | EmptyString, _ => Some s
  | String a p', String b s' => if Ascii.eqb a b then after p' s' else None
  | String _ _, EmptyString => None
  end.

(** The text of a string, read from just after its opening quote. *)
Fixpoint text (s : string) : option (string * string) :=
  match s with
  | EmptyString => None
  | String c r =>
      if Ascii.eqb c Py.dquote then Some ("", r)
      else if Ascii.eqb c Py.backslash then
        match r with
        | EmptyString => None
        | String e r' =>
            match unescape e, text r' with
            | Some a, Some (body, rest) => Some (String a body, rest)
            | _, _ => None
            end
        end
      else match text r with
           | Some (body, rest) => Some (String c body, rest)
           | None => None
           end
  end.

(** The items of an array after the first, up to the closing bracket. *)
Fixpoint items (n : nat) (value : string → option (pyval * string)) (s : string)
  : option (list pyval * string) :=
  match n, skip_ws s with
  | S n', String c r =>
      if Ascii.eqb c "]" then Some ([], r)
      else if Ascii.eqb c "," then
        match value r with
        | Some (v, rest) =>
            match items n' value rest with
            | Some (vs, rest') => Some (v :: vs, rest')
            | None => None
            end
        | None => None
        end
      else None
  | _, _ => None
  end.

Definition member (value : string → option (pyval * string)) (s : string)
  : option ((string * pyval) * string) :=
  match skip_ws s with
  | String c r =>
      if Ascii.eqb c Py.dquote then
        match text r with
        | Some (k, rest) =>
            match skip_ws rest with
            | String c' r' =>
                if Ascii.eqb c' ":" then
                  match value r' with
                  | Some (v, rest') => Some ((k, v), rest')
                  | None => None
                  end
                else None
            | EmptyString => None
            end
        | None => None
        end
      else None
  | EmptyString => None
  end.

(** The members of an object after the first, up to the closing brace. *)
Fixpoint members (n : nat) (value : string → option (pyval * string)) (s : string)
  : option (list (string * pyval) * string) :=
  match n, skip_ws s with
  | S n', String c r =>
      if Ascii.eqb c "}" then Some ([], r)
      else if Ascii.eqb c "," then
        match member value r with
        | Some (kv, rest) =>
            match members n' value rest with
            | Some (kvs, rest') => Some (kv :: kvs, rest')
            | None => None
            end
        | None => None
        end
      else None
  | _, _ => None
  end.

Fixpoint value (fuel : nat) (s : string) : option (pyval * string) :=
  match fuel with
  | O => None
  | S f =>
      let s' := skip_ws s in
      match s' with
      | EmptyString => None
      | String c r =>
          if Ascii.eqb c "[" then
            match skip_ws r with
            | String c' r' =>
                if Ascii.eqb c' "]" then Some (PyList [], r')
                else match value f r with
                     | Some (v, rest) =>
                         match items f (value f) rest with
                         | Some (vs, rest') => Some (PyList (v :: vs), rest')
                         | None => None
                         end
                     | None => None
                     end
            | EmptyString => None
            end
          else if Ascii.eqb c "{" then
            match skip_ws r with
            | String c' r' =>
                if Ascii.eqb c' "}" then Some (PyDict [], r')
                else match member (value f) r with
                     | Some (kv, rest) =>
                         match members f (value f) rest with
                         | Some (kvs, rest') => Some (PyDict (kv :: kvs), rest')
                         | None => None
                         end
                     | None => None
                     end
            | EmptyString => None
            end
          else if Ascii.eqb c Py.dquote then
            match text r with
            | Some (body, rest) => Some (PyStr body, rest)
            | None => None
            end
          else if Ascii.eqb c "-" then
            match number r with
            | Some (z, rest) => Some (PyInt (- z), rest)
            | None => None
            end
          else match after "null" s', after "true" s', after "false" s' with
               | Some rest, _, _ => Some (PyNone, rest)
               | _, Some rest, _ => Some (PyBool true, rest)
               | _, _, Some rest => Some (PyBool false, rest)
               | None, None, None =>
                   match number s' with
                   | Some (z, rest) => Some (PyInt z, rest)
                   | None => None
                   end
               end
      end
  end.

Definition loads (s : string) : outcome pyval :=
  match value (S (String.length s)) s with
  | Some (v, rest) =>
      match skip_ws rest with
      | EmptyString => Return v
      | String _ _ => Raise (ValueError "Extra data")
      end
  | None => Raise (ValueError "No JSON object could be decoded")
  end.

End Json.

(** ** Concrete hosts *)

Definition where_found : string :=
  "C:\Windows\System32\WindowsPowerShell\v1.0\powershell.exe".

Definition where_not_found : string :=
  "INFO: Could not find files for the given pattern(s).".

(** A host on which [where powershell] finds nothing. *)
Definition bare_host : Salt := {|
  cmd_run := λ _ _, Return where_not_found;
  cmd_run_all := λ _ _ _, Raise (CommandExecutionError "Unable to run command")
|}.

(** A host with the interpreter, answering every command with [ret]. *)
Definition host_answering (ret : list (string * pyval)) : Salt := {|
  cmd_run := λ _ _, Return where_found;
  cmd_run_all := λ _ _ _, Return ret
|}.

Definition result_of (retcode : Z) (stdout : string) : list (string * pyval) :=
  [("pid", PyInt 4242); ("retcode", PyInt retcode); ("stdout", PyStr stdout);
   ("stderr", PyStr "")].

Definition line_feed : string := String "010" "".

(** JSON text written with single quotes in place of the double ones. *)
Fixpoint dq (s : string) : string :=
  match s with
  | EmptyString => ""
  | String c s' => String (if Ascii.eqb c Py.squote then Py.dquote else c) (dq s')
  end.

Definition two_switches : string :=
  dq "[{'Name': 'sw0', 'SwitchType': 1}, {'Name': 'sw1', 'SwitchType': 2}]".

Definition one_switch : string := dq "{'Name': 'sw0', 'SwitchType': 1}".

(** ** Vocabulary of the properties *)

(** The availability probe, as it appears in a trace. *)
Definition probe : call := CmdRun ["where"; "powershell"] false.

(** The serialization stage that [_psrun] appends when asked for JSON. *)
Definition staged (cmd : string) (json_output : bool) : string :=
  if json_output then cmd +:+ " | ConvertTo-Json -Depth 1 -Compress" else cmd.

(** The calls of a run of [_psrun] that reaches the interpreter. *)
Definition calls_of_run (cmd : string) (json_output : bool) : list call :=
  [probe; CmdRunAll (staged cmd json_output) "powershell" false].

(** [sub] occurs in [s] as a contiguous piece. *)
Definition occurs (sub s : string) : Prop := ∃ a b, s = a +:+ sub +:+ b.

(** Text that [repr] leaves as it is between the quotes: printable ASCII
    without backslash and single quote. *)
Definition plain_char (c : ascii) : bool :=
  let n := N_of_ascii c in
  (32 <=? n)%N && (n <? 127)%N && negb (Ascii.eqb c Py.squote)
  && negb (Ascii.eqb c Py.backslash).

Fixpoint plain (s : string) : bool :=
  match s with
  | EmptyString => true
  | String c s' => plain_char c && plain s'
  end.

(** An argument that is [None] or has nothing but white space. *)
Definition blank (o : option string) : Prop :=
  match o with
  | None => True
  | Some s => Py.strip s = ""
  end.

Definition switch_types : list string := ["external"; "internal"; "private"].

(** A switch type that is not one of the three. *)
Definition unsupported (o : option string) : Prop :=
  ∀ s, o = Some s → ¬ In s switch_types.

Definition selector_kinds : list string := ["mac"; "name"].

(** What [add_vswitch] and [remove_vswitch] make of a run of the command
    runner: [True] when it returned, [False] when it raised, whatever the
    error was. *)
Definition degrade (r : outcome pyval * list call) : outcome bool * list call :=
  (match fst r with
   | Return _ => Return true
   | Raise _ => Return false
   end, snd r).

(** The commands the two operations hand to the runner. *)
Definition new_vmswitch (name switchtype : string) (kwargs : gmap string pyval) : string :=
  "New-VMSwitch -Name " +:+ name +:+
  (if String.eqb switchtype "external"
   then " -NetAdapterName " +:+ from_option Py.str "" (kwargs !! "interface")
   else " -SwitchType " +:+ switchtype).

Definition remove_vmswitch (name : string) : string :=
  "Remove-VMSwitch -Force -Name " +:+ name.

(** Arguments that [add_vswitch] accepts. *)
Definition accepted (name switchtype : string) (kwargs : gmap string pyval) : Prop :=
  Py.strip name ≠ ""
  ∧ In switchtype switch_types
  ∧ (switchtype = "external" → is_Some (kwargs !! "interface")).

(** The command runner signalled a failure to its caller. *)
Definition failed {A : Type} (o : outcome A) : Prop := ∃ e, o = Raise e.

(** ** Facts about strings *)

Section Strings.

Implicit Types a b c s sub : string.

Lemma append_cons x a b : String x a +:+ b = String x (a +:+ b).
Proof. reflexivity. Qed.

Lemma append_nil_l b : "" +:+ b = b.
Proof. reflexivity. Qed.

Lemma append_assoc a b c : (a +:+ b) +:+ c = a +:+ b +:+ c.
Proof.
  induction a as [|x a IH]; [done |]. by rewrite !append_cons, IH.
Qed.

Lemma append_nil_r s : s +:+ "" = s.
Proof.
  induction s as [|x s IH]; [done |]. by rewrite append_cons, IH.
Qed.

Lemma startswith_spec p s : Py.startswith p s = true ↔ ∃ b, s = p +:+ b.
Proof.
  revert s. induction p as [|x p IH]; intros s; simpl.
  - split; [intros _; by exists s | done].
  - destruct s as [|y s].
    + split; [done | intros [b Hb]; by rewrite append_cons in Hb].
    + rewrite andb_true_iff, Ascii.eqb_eq, IH. split.
      * intros [-> [b ->]]. by exists b.
      * intros [b Hb]. rewrite append_cons in Hb. injection Hb as -> ->.
        split; [done | by exists b].
Qed.

Lemma contains_spec sub s : Py.contains sub s = true ↔ occurs sub s.
Proof.
  induction s as [|y s IH].
  - simpl. rewrite orb_false_r, startswith_spec. split.
    + intros [b Hb]. by exists "", b.
    + intros [a [b Hab]]. destruct a as [|x a]; [by exists b |].
      by rewrite append_cons in Hab.
  - cbn [Py.contains]. rewrite orb_true_iff, startswith_spec, IH. split.
    + intros [[b Hb] | [a [b Hab]]].
      * by exists "", b.
      * exists (String y a), b. by rewrite append_cons, Hab.
    + intros [a [b Hab]]. destruct a as [|x a].
      * left. by exists b.
      * right. rewrite append_cons in Hab. injection Hab as _ Hab. by exists a, b.
Qed.

Lemma occurs_refl s : occurs s s.
Proof. exists "", "". by rewrite append_nil_l, append_nil_r. Qed.

Lemma occurs_between sub s a b : occurs sub s → occurs sub (a +:+ s +:+ b).
Proof.
  intros [x [y ->]]. exists (a +:+ x), (y +:+ b).
  by rewrite !append_assoc.
Qed.

Lemma occurs_prepend sub s a : occurs sub s → occurs sub (a +:+ s).
Proof.
  intros H. rewrite <- (append_nil_r s). by apply occurs_between.
Qed.

Lemma occurs_append sub s b : occurs sub s → occurs sub (s +:+ b).
Proof. intros H. by apply (occurs_between sub s "" b). Qed.

Lemma occurs_join sep x (l : list string) : In x l → occurs x (Py.join sep l).
Proof.
  induction l as [|y l IH]; [done |].
  intros [-> | Hin].
  - destruct l; [apply occurs_refl |].
    cbn [Py.join]. apply occurs_append, occurs_refl.
  - destruct l as [|z l]; [done |].
    cbn [Py.join]. rewrite <- append_assoc. by apply occurs_prepend, IH.
Qed.

Lemma repr_chars_plain q s :
  q = Py.squote → plain s = true → Py.repr_chars q s = s.
Proof.
  intros ->. induction s as [|c s IH]; [done |].
  cbn [plain Py.repr_chars]. rewrite andb_true_iff. intros [Hc Hs].
  rewrite (IH Hs). revert Hc. clear.
  destruct c as [[] [] [] [] [] [] [] []]; vm_compute; congruence.
Qed.

Lemma plain_has_no_squote s : plain s = true → Py.has_char Py.squote s = false.
Proof.
  induction s as [|c s IH]; [done |].
  cbn [plain Py.has_char]. rewrite andb_true_iff. intros [Hc Hs].
  rewrite (IH Hs), orb_false_r. unfold plain_char in Hc.
  destruct (Ascii.eqb c Py.squote); [| done].
  by rewrite andb_false_r in Hc.
Qed.

Lemma repr_str_plain s :
  plain s = true → Py.repr_str s = "'" +:+ s +:+ "'".
Proof.
  intros H. unfold Py.repr_str. rewrite (plain_has_no_squote s H). simpl.
  by rewrite (repr_chars_plain _ s eq_refl H).
Qed.

Lemma len_positive s : (0 <? Py.len s) = false ↔ s = "".
Proof.
  unfold Py.len. destruct s; simpl; [done |].
  split; [| done]. rewrite Z.ltb_ge. lia.
Qed.

End Strings.

(** ** Facts about dictionaries *)

Lemma dict_get_In {V : Type} (d : list (string * V)) k v :
  Py.dict_get d k = Some v → In (k, v) d.
Proof.
  induction d as [|[k' v'] d IH]; [done |]. simpl.
  destruct (String.eqb_spec k' k) as [-> | _].
  - intros [= ->]. by left.
  - intros H. right. by apply IH.
Qed.

Lemma dict_get_set {V : Type} (d : list (string * V)) k v :
  Py.dict_get (Py.dict_set d k v) k = Some v.
Proof.
  induction d as [|[k' v'] d IH]; simpl.
  - by rewrite String.eqb_refl.
  - destruct (String.eqb_spec k' k) as [-> | Hne]; simpl.
    + by rewrite String.eqb_refl.
    + by destruct (String.eqb_spec k' k).
Qed.

Lemma occurs_repr_item d k v :
  In (k, v) d → occurs (Py.repr v) (Py.repr (PyDict d)).
Proof.
  intros Hin. cbn [Py.repr]. apply occurs_between.
  set (item := λ kv : string * pyval, Py.repr_str (fst kv) +:+ ": " +:+ Py.repr (snd kv)).
  assert (In (item (k, v)) (List.map item d)) as Hitem by by apply in_map.
  destruct (occurs_join ", " _ _ Hitem) as [a [b ->]].
  unfold item. cbn [fst snd].
  exists (a +:+ Py.repr_str k +:+ ": "), b. by rewrite !append_assoc.
Qed.

(** ** The command runner *)

Section Runner.

Variable salt : Salt.
Variable decode : string → outcome pyval.

Implicit Types (cmd : string) (t : list call) (ret : list (string * pyval)).

Lemma has_powershell_run t b :
  fst (_has_powershell salt t) = Return b →
  _has_powershell salt t = (Return b, (t ++ [probe])%list).
Proof.
  unfold _has_powershell, invoke, mbind, M_bind, mret, M_ret, probe.
  destruct (cmd_run salt _ _); simpl; congruence.
Qed.

Lemma getitem_some d k v t : Py.dict_get d k = Some v → getitem d k t = (Return v, t).
Proof. unfold getitem. by intros ->. Qed.

Lemma getitem_set d k v t : getitem (Py.dict_set d k v) k t = (Return v, t).
Proof. apply getitem_some, dict_get_set. Qed.

Lemma executed_app t t' : executed (t ++ t') = executed t || executed t'.
Proof. apply existsb_app. Qed.

(** Without the interpreter [_psrun] makes the probe, and nothing else. *)
Lemma psrun_absent cmd json_output t :
  fst (_has_powershell salt t) = Return false →
  _psrun salt decode cmd json_output t = (Return PyNone, (t ++ [probe])%list).
Proof.
  intros H%has_powershell_run. unfold _psrun, mbind, M_bind. by rewrite H.
Qed.

(** With the interpreter, a result whose status is not zero. *)
Lemma psrun_status_nonzero cmd json_output t ret rc :
  fst (_has_powershell salt t) = Return true →
  cmd_run_all salt (staged cmd json_output) "powershell" false = Return ret →
  Py.dict_get ret "retcode" = Some rc →
  Py.eq_int rc 0 = false →
  _psrun salt decode cmd json_output t
  = (Raise (CommandExecutionError (Py.str (PyDict ret))),
     (t ++ calls_of_run cmd json_output)%list).
Proof.
  intros Hps%has_powershell_run Hrun Hrc Hne.
  unfold _psrun, mbind, M_bind. rewrite Hps.
  unfold invoke. fold (staged cmd json_output). rewrite Hrun.
  rewrite (getitem_some _ _ _ _ Hrc), Hne.
  unfold raise, calls_of_run. by rewrite <- app_assoc.
Qed.

(** With the interpreter, status zero and decoding asked for: what is
    decoded is the output, or the text of an empty array when the output
    is blank; a decoded value that is not a list is put in one. *)
Lemma psrun_status_zero_json cmd t ret rc out :
  fst (_has_powershell salt t) = Return true →
  cmd_run_all salt (staged cmd true) "powershell" false = Return ret →
  Py.dict_get ret "retcode" = Some rc →
  Py.eq_int rc 0 = true →
  Py.dict_get ret "stdout" = Some (PyStr out) →
  _psrun salt decode cmd true t
  = (match decode (if Py.len (Py.strip out) =? 0 then "[]" else out) with
     | Return v => Return (if Py.is_list v then v else PyList [v])
     | Raise e => Raise e
     end,
     (t ++ calls_of_run cmd true)%list).
Proof.
  intros Hps%has_powershell_run Hrun Hrc Hzero Hout.
  unfold _psrun, mbind, M_bind. rewrite Hps.
  unfold invoke. fold (staged cmd true). rewrite Hrun.
  rewrite (getitem_some _ _ _ _ Hrc), Hzero.
  rewrite (getitem_some _ _ _ _ Hout).
  unfold strip_method, mret, M_ret, calls_of_run. rewrite <- app_assoc.
  destruct (Py.len (Py.strip out) =? 0).
  - rewrite getitem_set. unfold loads.
    destruct (decode "[]") as [v | e]; [| done].
    rewrite getitem_set. destruct (Py.is_list v); cbn [negb]; by rewrite getitem_set.
  - rewrite (getitem_some _ _ _ _ Hout). unfold loads.
    destruct (decode out) as [v | e]; [| done].
    rewrite getitem_set. destruct (Py.is_list v); cbn [negb]; by rewrite getitem_set.
Qed.

(** With the interpreter, status zero and no decoding: the raw output. *)
Lemma psrun_status_zero_raw cmd t ret rc out :
  fst (_has_powershell salt t) = Return true →
  cmd_run_all salt (staged cmd false) "powershell" false = Return ret →
  Py.dict_get ret "retcode" = Some rc →
  Py.eq_int rc 0 = true →
  Py.dict_get ret "stdout" = Some out →
  _psrun salt decode cmd false t = (Return out, (t ++ calls_of_run cmd false)%list).
Proof.
  intros Hps%has_powershell_run Hrun Hrc Hzero Hout.
  unfold _psrun, mbind, M_bind. rewrite Hps.
  unfold invoke. fold (staged cmd false). rewrite Hrun.
  rewrite (getitem_some _ _ _ _ Hrc), Hzero.
  unfold mret, M_ret, calls_of_run. rewrite <- app_assoc.
  by rewrite (getitem_some _ _ _ _ Hout).
Qed.

Lemma len_strip_nonblank s : Py.strip s ≠ "" → (Py.len (Py.strip s) =? 0) = false.
Proof.
  intros H. unfold Py.len. destruct (Py.strip s); [done |]. simpl. lia.
Qed.

(** C1, as the code has it: when the availability check answers that the
    interpreter is not on the search path, [_psrun] makes the check and no
    other call, so no command is executed, and it returns [None] to its
    caller without raising. *)
Theorem psrun_unresolvable_returns_none cmd json_output t :
  fst (_has_powershell salt t) = Return false →
  fst (_psrun salt decode cmd json_output t) = Return PyNone
  ∧ snd (_psrun salt decode cmd json_output t) = (t ++ [probe])%list
  ∧ executed (snd (_psrun salt decode cmd json_output t)) = executed t.
Proof.
  intros H. rewrite (psrun_absent _ _ _ H). cbn [fst snd].
  repeat split. rewrite executed_app. cbn. by rewrite orb_false_r.
Qed.

(** C2, as the code has it: in both modes a status other than zero makes
    [_psrun] raise an execution error whose message is [str] of the whole
    captured result.  The message holds the status code in decimal and the
    output text the way [repr] quotes it; the text is there letter for
    letter when it has nothing that [repr] escapes. *)
Theorem psrun_nonzero_status_raises cmd json_output t ret c out :
  fst (_has_powershell salt t) = Return true →
  cmd_run_all salt (staged cmd json_output) "powershell" false = Return ret →
  Py.dict_get ret "retcode" = Some (PyInt c) →
  c ≠ 0 →
  Py.dict_get ret "stdout" = Some (PyStr out) →
  ∃ msg,
    fst (_psrun salt decode cmd json_output t) = Raise (CommandExecutionError msg)
    ∧ msg = Py.str (PyDict ret)
    ∧ occurs (pretty c) msg
    ∧ occurs (Py.repr_str out) msg
    ∧ (plain out = true → occurs out msg).
Proof.
  intros Hps Hrun Hrc Hne Hout. exists (Py.str (PyDict ret)).
  assert (Py.eq_int (PyInt c) 0 = false) as Hnz by by apply Z.eqb_neq.
  rewrite (psrun_status_nonzero _ _ _ _ _ Hps Hrun Hrc Hnz). cbn [fst Py.str].
  pose proof (occurs_repr_item _ _ _ (dict_get_In _ _ _ Hrc)) as Hc.
  pose proof (occurs_repr_item _ _ _ (dict_get_In _ _ _ Hout)) as Ho.
  cbn [Py.repr] in Hc, Ho |- *. repeat split; try done.
  intros Hplain. rewrite (repr_str_plain _ Hplain) in Ho.
  destruct Ho as [a [b ->]]. exists (a +:+ "'"), ("'" +:+ b).
  by rewrite !append_assoc.
Qed.

(** C3: with JSON output asked for, status zero and an output that is
    empty once stripped, [_psrun] returns the empty list. *)
Theorem psrun_blank_output_is_empty_list cmd t ret out :
  decode "[]" = Return (PyList []) →
  fst (_has_powershell salt t) = Return true →
  cmd_run_all salt (staged cmd true) "powershell" false = Return ret →
  Py.dict_get ret "retcode" = Some (PyInt 0) →
  Py.dict_get ret "stdout" = Some (PyStr out) →
  Py.strip out = "" →
  fst (_psrun salt decode cmd true t) = Return (PyList []).
Proof.
  intros Hdec Hps Hrun Hrc Hout Hblank.
  rewrite (psrun_status_zero_json _ _ _ _ _ Hps Hrun Hrc eq_refl Hout).
  rewrite Hblank. change (Py.len "" =? 0) with true. cbv iota.
  by rewrite Hdec.
Qed.

(** C4: with JSON output asked for, status zero and an output that is not
    blank and decodes to [v]: when [v] is not a list the result is the
    one-element list of [v]; when [v] is a list the result is that list,
    the same elements in the same order. *)
Theorem psrun_decoded_output_is_a_list cmd t ret out v :
  fst (_has_powershell salt t) = Return true →
  cmd_run_all salt (staged cmd true) "powershell" false = Return ret →
  Py.dict_get ret "retcode" = Some (PyInt 0) →
  Py.dict_get ret "stdout" = Some (PyStr out) →
  Py.strip out ≠ "" →
  decode out = Return v →
  (Py.is_list v = false → fst (_psrun salt decode cmd true t) = Return (PyList [v]))
  ∧ (∀ l, v = PyList l → fst (_psrun salt decode cmd true t) = Return (PyList l)).
Proof.
  intros Hps Hrun Hrc Hout Hnonblank Hdec.
  rewrite (psrun_status_zero_json _ _ _ _ _ Hps Hrun Hrc eq_refl Hout).
  rewrite (len_strip_nonblank _ Hnonblank), Hdec. cbn [fst]. split.
  - by intros ->.
  - by intros l ->.
Qed.

End Runner.

(** ** The call sites *)

Section CallSites.

Variable salt : Salt.
Variable decode : string → outcome pyval.

Implicit Types (name switchtype : string) (kwargs : gmap string pyval) (t : list call).

Lemma nonblank_len s : Py.strip s ≠ "" ↔ (0 <? Py.len (Py.strip s)) = true.
Proof.
  rewrite <- not_false_iff_true, len_positive. done.
Qed.

Lemma switch_type_checks switchtype :
  In switchtype switch_types →
  (0 <? Py.len (Py.strip switchtype)) = true
  ∧ Py.in_list switchtype (Py.dict_values _SWITCH_TYPES) = true
  ∧ (switchtype ≠ "external" → Py.in_list switchtype ["internal"; "private"] = true).
Proof.
  intros [<- | [<- | [<- | []]]]; repeat split; try done.
Qed.

Lemma in_switch_types switchtype :
  Py.in_list switchtype (Py.dict_values _SWITCH_TYPES) = true ↔ In switchtype switch_types.
Proof.
  unfold Py.in_list, Py.dict_values, _SWITCH_TYPES, switch_types. cbn [List.map snd existsb].
  rewrite !orb_true_iff, !String.eqb_eq. cbn [In]. intuition congruence.
Qed.

Lemma subscript_switch_type k v t :
  List.In (k, v) _SWITCH_TYPES → subscript _SWITCH_TYPES k t = (Return v, t).
Proof.
  intros [[= <- <-] | [[= <- <-] | [[= <- <-] | []]]]; reflexivity.
Qed.

Lemma try_except_degrade (body : M pyval) t :
  try_except body (λ _, mret false) (λ _, mret true) t = degrade (body t).
Proof.
  unfold try_except, degrade, mret, M_ret. by destruct (body t) as [[v | e] t'].
Qed.

Lemma add_vswitch_accepted name switchtype kwargs t :
  accepted name switchtype kwargs →
  add_vswitch salt decode (Some name) (Some switchtype) kwargs t
  = degrade (_psrun salt decode (new_vmswitch name switchtype kwargs) true t).
Proof.
  intros (Hname & Htype & Hiface).
  destruct (switch_type_checks _ Htype) as (Hlen & Hin & Hother).
  unfold add_vswitch, new_vmswitch.
  rewrite (proj1 (nonblank_len name) Hname), Hlen, Hin. cbn [negb].
  unfold mbind, M_bind. rewrite (subscript_switch_type 0 "external" t) by (cbn; tauto).
  destruct (String.eqb_spec switchtype "external") as [Hext | Hext].
  - destruct (Hiface Hext) as [iface ->]. unfold mret at 1, M_ret at 1.
    by rewrite try_except_degrade.
  - rewrite (subscript_switch_type 1 "internal" t) by (cbn; tauto).
    rewrite (subscript_switch_type 2 "private" t) by (cbn; tauto).
    rewrite (Hother Hext). unfold mret at 1, M_ret at 1.
    by rewrite try_except_degrade.
Qed.

Lemma remove_vswitch_accepted name kwargs t :
  Py.strip name ≠ "" →
  remove_vswitch salt decode (Some name) kwargs t
  = degrade (_psrun salt decode (remove_vmswitch name) true t).
Proof.
  intros Hname. unfold remove_vswitch, remove_vmswitch.
  rewrite (proj1 (nonblank_len name) Hname). by rewrite try_except_degrade.
Qed.

Lemma add_vswitch_no_name type_arg kwargs t (name_arg : option string) :
  blank name_arg →
  add_vswitch salt decode name_arg type_arg kwargs t
  = (Raise (SaltInvocationError "vswitch name not specified"), t).
Proof.
  destruct name_arg as [name |]; [| done]. cbn [blank]. intros Hblank.
  unfold add_vswitch. by rewrite Hblank.
Qed.

Lemma add_vswitch_no_type name (type_arg : option string) kwargs t :
  Py.strip name ≠ "" →
  blank type_arg →
  add_vswitch salt decode (Some name) type_arg kwargs t
  = (Raise (SaltInvocationError "vswitch type not specified"), t).
Proof.
  intros Hname%nonblank_len Hblank. unfold add_vswitch. rewrite Hname.
  destruct type_arg as [switchtype |]; [| done]. cbn [blank] in Hblank.
  by rewrite Hblank.
Qed.

Lemma add_vswitch_unsupported name switchtype kwargs t :
  Py.strip name ≠ "" →
  Py.strip switchtype ≠ "" →
  ¬ In switchtype switch_types →
  add_vswitch salt decode (Some name) (Some switchtype) kwargs t
  = (Raise (SaltInvocationError ("switchtype " +:+ switchtype +:+ " not supported")), t).
Proof.
  intros Hname%nonblank_len Htype%nonblank_len Hnot. unfold add_vswitch.
  rewrite Hname, Htype.
  destruct (Py.in_list switchtype (Py.dict_values _SWITCH_TYPES)) eqn:Hin; [| done].
  by apply in_switch_types in Hin.
Qed.

Lemma add_vswitch_no_interface name kwargs t :
  Py.strip name ≠ "" →
  kwargs !! "interface" = None →
  add_vswitch salt decode (Some name) (Some "external") kwargs t
  = (Raise (SaltInvocationError "no interface name specified for external vswitch"), t).
Proof.
  intros Hname%nonblank_len Hnone. unfold add_vswitch. rewrite Hname.
  change (0 <? Py.len (Py.strip "external")) with true.
  change (Py.in_list "external" (Py.dict_values _SWITCH_TYPES)) with true.
  cbn [negb]. unfold mbind, M_bind.
  rewrite (subscript_switch_type 0 "external" t) by (cbn; tauto).
  rewrite String.eqb_refl. by rewrite Hnone.
Qed.

Lemma degrade_returns r : ∃ b, fst (degrade r) = Return b.
Proof. unfold degrade. destruct (fst r); cbn [fst]; eauto. Qed.

(** C5: when the arguments pass validation, [add_vswitch] and
    [remove_vswitch] return [False] if the command runner raised, whatever
    the error, and [True] if it returned. *)
Theorem vswitch_execution_error_degrades name switchtype kwargs t :
  Py.strip name ≠ "" →
  (In switchtype switch_types ∧ (switchtype = "external" → is_Some (kwargs !! "interface")) →
   let run := _psrun salt decode (new_vmswitch name switchtype kwargs) true t in
   let op := add_vswitch salt decode (Some name) (Some switchtype) kwargs t in
   (∀ e, fst run = Raise e → fst op = Return false)
   ∧ (∀ v, fst run = Return v → fst op = Return true)
   ∧ snd op = snd run)
  ∧ (let run := _psrun salt decode (remove_vmswitch name) true t in
     let op := remove_vswitch salt decode (Some name) kwargs t in
     (∀ e, fst run = Raise e → fst op = Return false)
     ∧ (∀ v, fst run = Return v → fst op = Return true)
     ∧ snd op = snd run).
Proof.
  intros Hname. split.
  - intros [Htype Hiface]. cbv zeta.
    rewrite (add_vswitch_accepted name switchtype kwargs t) by done.
    unfold degrade. cbn [fst snd]. by repeat split; intros ? ->.
  - cbv zeta. rewrite (remove_vswitch_accepted name kwargs t Hname).
    unfold degrade. cbn [fst snd]. by repeat split; intros ? ->.
Qed.

(** C6: [add_vswitch] with a name that is not blank, type "external" and
    no [interface] argument raises the invalid-argument error, and has
    called nothing: the trace is what it was. *)
Theorem add_external_vswitch_requires_interface name kwargs t :
  Py.strip name ≠ "" →
  kwargs !! "interface" = None →
  add_vswitch salt decode (Some name) (Some "external") kwargs t
  = (Raise (SaltInvocationError "no interface name specified for external vswitch"), t).
Proof. apply add_vswitch_no_interface. Qed.

(** C7: [add_vswitch] raises an invalid-argument error exactly when the
    name is missing or blank, the type is missing or blank, the type is not
    one of external, internal and private, or the type is external and
    there is no [interface] argument.  So with one of the three types and
    the arguments it requires, no invalid-argument error is raised. *)
Theorem add_vswitch_invalid_argument_iff (name_arg type_arg : option string) kwargs t :
  ((∃ msg, fst (add_vswitch salt decode name_arg type_arg kwargs t)
           = Raise (SaltInvocationError msg))
   ↔ blank name_arg ∨ blank type_arg ∨ unsupported type_arg
     ∨ (type_arg = Some "external" ∧ kwargs !! "interface" = None))
  ∧ (∀ name switchtype,
       name_arg = Some name → type_arg = Some switchtype →
       accepted name switchtype kwargs →
       ∀ msg, fst (add_vswitch salt decode name_arg type_arg kwargs t)
              ≠ Raise (SaltInvocationError msg)).
Proof.
  split.
  - destruct name_arg as [name |]; cycle 1.
    { split; [by left | intros _; by eexists]. }
    destruct (decide (Py.strip name = "")) as [Hname | Hname].
    { rewrite add_vswitch_no_name by done. split; [by left | intros _; by eexists]. }
    destruct type_arg as [switchtype |]; cycle 1.
    { rewrite add_vswitch_no_type by done.
      split; [by right; left | intros _; by eexists]. }
    destruct (decide (Py.strip switchtype = "")) as [Htype | Htype].
    { rewrite add_vswitch_no_type by done.
      split; [by right; left | intros _; by eexists]. }
    destruct (Py.in_list switchtype (Py.dict_values _SWITCH_TYPES)) eqn:Hin.
    + apply in_switch_types in Hin.
      destruct (decide (switchtype = "external")) as [-> | Hext].
      * destruct (kwargs !! "interface") as [iface |] eqn:Hiface.
        -- rewrite add_vswitch_accepted by (repeat split; eauto).
           destruct (degrade_returns
                       (_psrun salt decode (new_vmswitch name "external" kwargs) true t))
             as [b ->].
           split; [by intros [msg ?] |].
           intros [? | [? | [Hun | [_ ?]]]]; try done. by destruct (Hun _ eq_refl).
        -- rewrite add_vswitch_no_interface by done.
           split; [intros _; by do 3 right | intros _; by eexists].
      * rewrite add_vswitch_accepted by (repeat split; done).
        destruct (degrade_returns
                    (_psrun salt decode (new_vmswitch name switchtype kwargs) true t))
          as [b ->].
        split; [by intros [msg ?] |].
        intros [? | [? | [Hun | [[= ?] _]]]]; try done. by destruct (Hun _ eq_refl).
    + assert (¬ In switchtype switch_types) as Hnot.
      { rewrite <- in_switch_types. by rewrite Hin. }
      rewrite add_vswitch_unsupported by done.
      split; [intros _ | intros _; by eexists].
      right; right; left. by intros s [= <-].
  - intros name switchtype -> -> Hacc msg.
    rewrite add_vswitch_accepted by done.
    by destruct (degrade_returns
                   (_psrun salt decode (new_vmswitch name switchtype kwargs) true t))
      as [b ->].
Qed.

(** C8: [set_netadapter] with selector kind mac or name and neither a
    [name] nor a [vlan] argument returns [False], and has called nothing. *)
Theorem set_netadapter_nothing_requested tgt tgt_type kwargs t :
  In tgt_type selector_kinds →
  kwargs !! "name" = None →
  kwargs !! "vlan" = None →
  set_netadapter salt decode tgt tgt_type kwargs t = (Return (PyBool false), t).
Proof.
  intros Hkind Hname Hvlan. unfold set_netadapter. rewrite Hname, Hvlan.
  by destruct Hkind as [<- | [<- | []]].
Qed.

(** C9: [set_netadapter] with a selector kind other than mac and name
    raises the invalid-argument error, whatever the other arguments, and
    has called nothing. *)
Theorem set_netadapter_unsupported_selector tgt tgt_type kwargs t :
  ¬ In tgt_type selector_kinds →
  set_netadapter salt decode tgt tgt_type kwargs t
  = (Raise (SaltInvocationError ("tgt_type " +:+ tgt_type +:+ " is not allowed")), t).
Proof.
  intros Hkind. unfold set_netadapter, filter_properties. cbn [Py.dict_get].
  destruct (String.eqb_spec "mac" tgt_type) as [<- | _].
  { destruct Hkind. by left. }
  destruct (String.eqb_spec "name" tgt_type) as [<- | _]; [| done].
  destruct Hkind. by right; left.
Qed.

(** C10: when the availability check answers that the interpreter is not
    there, [_psrun] returns [None] without raising, and [add_vswitch] and
    [remove_vswitch] with valid arguments return [True], though the only
    call made is the check and no command was executed. *)
Theorem unresolvable_interpreter_reported_as_success t :
  fst (_has_powershell salt t) = Return false →
  (∀ cmd json_output,
     _psrun salt decode cmd json_output t = (Return PyNone, (t ++ [probe])%list))
  ∧ (∀ name switchtype kwargs,
       accepted name switchtype kwargs →
       add_vswitch salt decode (Some name) (Some switchtype) kwargs t
       = (Return true, (t ++ [probe])%list))
  ∧ (∀ name kwargs,
       Py.strip name ≠ "" →
       remove_vswitch salt decode (Some name) kwargs t
       = (Return true, (t ++ [probe])%list))
  ∧ executed (t ++ [probe]) = executed t.
Proof.
  intros Habsent. repeat split.
  - intros cmd json_output. by apply psrun_absent.
  - intros name switchtype kwargs Hacc.
    rewrite add_vswitch_accepted by done. by rewrite psrun_absent.
  - intros name kwargs Hname.
    rewrite remove_vswitch_accepted by done. by rewrite psrun_absent.
  - rewrite executed_app. cbn. by rewrite orb_false_r.
Qed.

End CallSites.

(** ** The properties on concrete hosts *)

Example message_of_a_failed_run :
  Py.str (PyDict (result_of 1 "Access is denied."))
  = "{'pid': 4242, 'retcode': 1, 'stdout': 'Access is denied.', 'stderr': ''}".
Proof. reflexivity. Qed.

Example repr_of_two_lines :
  Py.repr (PyStr ("line1" +:+ line_feed +:+ "line2")) = "'line1\nline2'".
Proof. reflexivity. Qed.

Example decode_two_switches :
  Json.loads two_switches
  = Return (PyList [PyDict [("Name", PyStr "sw0"); ("SwitchType", PyInt 1)];
                    PyDict [("Name", PyStr "sw1"); ("SwitchType", PyInt 2)]]).
Proof. reflexivity. Qed.

Example run_of_set_netadapter :
  set_netadapter (host_answering (result_of 0 one_switch)) Json.loads
    (PyStr "00-00-00-00-00-00") "mac" {["vlan" := PyInt 42]} []
  = (Return (PyList [PyDict [("Name", PyStr "sw0"); ("SwitchType", PyInt 1)]]),
     calls_of_run
       ("Get-NetAdapter -Physical | Where {$_.MacAddress -eq "
        +:+ dq "'00-00-00-00-00-00'" +:+ "} | Set-NetAdapter -VlanID 42 -PassThru")
       true).
Proof. reflexivity. Qed.

Lemma psrun_unresolvable_returns_none_witness :
  fst (_psrun bare_host Json.loads "Get-VM" true []) = Return PyNone
  ∧ snd (_psrun bare_host Json.loads "Get-VM" true []) = [probe]
  ∧ executed (snd (_psrun bare_host Json.loads "Get-VM" true [])) = false.
Proof.
  apply (psrun_unresolvable_returns_none bare_host Json.loads "Get-VM" true []).
  reflexivity.
Defined.

(** On a host where the probe finds no interpreter, the caller of [_psrun]
    is not given a failure: [_psrun] returns normally, and [add_vswitch],
    which calls it, reports success. *)
Lemma unresolvable_interpreter_is_not_a_failure :
  fst (_has_powershell bare_host []) = Return false
  ∧ ¬ failed (fst (_psrun bare_host Json.loads "Get-VM" true []))
  ∧ fst (add_vswitch bare_host Json.loads (Some "sw0") (Some "private") ∅ [])
    = Return true.
Proof.
  split; [reflexivity |]. split; [| reflexivity].
  intros [e He]. vm_compute in He. discriminate He.
Qed.

Lemma psrun_nonzero_status_raises_witness :
  ∃ msg,
    fst (_psrun (host_answering (result_of 1 "Access is denied.")) Json.loads
           "Get-VM" false [])
    = Raise (CommandExecutionError msg)
    ∧ msg = Py.str (PyDict (result_of 1 "Access is denied."))
    ∧ occurs (pretty 1) msg
    ∧ occurs (Py.repr_str "Access is denied.") msg
    ∧ (plain "Access is denied." = true → occurs "Access is denied." msg).
Proof.
  apply (psrun_nonzero_status_raises
           (host_answering (result_of 1 "Access is denied.")) Json.loads
           "Get-VM" false [] (result_of 1 "Access is denied.") 1 "Access is denied.").
  - reflexivity.
  - reflexivity.
  - reflexivity.
  - lia.
  - reflexivity.
Defined.

(** An output of two lines: the message of the execution error has the
    line feed as a backslash and a letter, so the output text does not
    occur in it. *)
Lemma nonzero_status_message_escapes_output :
  ∃ msg,
    fst (_psrun (host_answering (result_of 1 ("line1" +:+ line_feed +:+ "line2")))
           Json.loads "Get-VM" true [])
    = Raise (CommandExecutionError msg)
    ∧ occurs (pretty 1) msg
    ∧ ¬ occurs ("line1" +:+ line_feed +:+ "line2") msg.
Proof.
  eexists. split; [vm_compute; reflexivity |]. split.
  - apply contains_spec. vm_compute. reflexivity.
  - intros H%contains_spec. vm_compute in H. discriminate H.
Qed.

Lemma psrun_blank_output_is_empty_list_witness :
  fst (_psrun (host_answering (result_of 0 ("  " +:+ line_feed))) Json.loads
         "Get-VMSwitch" true [])
  = Return (PyList []).
Proof.
  apply (psrun_blank_output_is_empty_list
           (host_answering (result_of 0 ("  " +:+ line_feed))) Json.loads
           "Get-VMSwitch" [] (result_of 0 ("  " +:+ line_feed)) ("  " +:+ line_feed)).
  - reflexivity.
  - reflexivity.
  - reflexivity.
  - reflexivity.
  - reflexivity.
  - reflexivity.
Defined.

Lemma psrun_decoded_output_is_a_list_witness :
  fst (_psrun (host_answering (result_of 0 one_switch)) Json.loads "Get-VMSwitch" true [])
  = Return (PyList [PyDict [("Name", PyStr "sw0"); ("SwitchType", PyInt 1)]])
  ∧ fst (_psrun (host_answering (result_of 0 two_switches)) Json.loads
           "Get-VMSwitch" true [])
    = Return (PyList [PyDict [("Name", PyStr "sw0"); ("SwitchType", PyInt 1)];
                      PyDict [("Name", PyStr "sw1"); ("SwitchType", PyInt 2)]]).
Proof.
  split.
  - refine (proj1 (psrun_decoded_output_is_a_list
                     (host_answering (result_of 0 one_switch)) Json.loads "Get-VMSwitch" []
                     (result_of 0 one_switch) one_switch
                     (PyDict [("Name", PyStr "sw0"); ("SwitchType", PyInt 1)])
                     _ _ _ _ _ _) _).
    + reflexivity.
    + reflexivity.
    + reflexivity.
    + reflexivity.
    + vm_compute. discriminate.
    + vm_compute. reflexivity.
    + reflexivity.
  - refine (proj2 (psrun_decoded_output_is_a_list
                     (host_answering (result_of 0 two_switches)) Json.loads "Get-VMSwitch" []
                     (result_of 0 two_switches) two_switches
                     (PyList [PyDict [("Name", PyStr "sw0"); ("SwitchType", PyInt 1)];
                              PyDict [("Name", PyStr "sw1"); ("SwitchType", PyInt 2)]])
                     _ _ _ _ _ _) _ _).
    + reflexivity.
    + reflexivity.
    + reflexivity.
    + reflexivity.
    + vm_compute. discriminate.
    + vm_compute. reflexivity.
    + reflexivity.
Defined.

Lemma vswitch_execution_error_degrades_witness :
  fst (add_vswitch (host_answering (result_of 1 "Access is denied.")) Json.loads
         (Some "sw0") (Some "private") ∅ [])
  = Return false
  ∧ fst (remove_vswitch (host_answering (result_of 0 "")) Json.loads (Some "sw0") ∅ [])
    = Return true.
Proof.
  split.
  - refine (proj1 (proj1 (vswitch_execution_error_degrades
                            (host_answering (result_of 1 "Access is denied.")) Json.loads
                            "sw0" "private" ∅ [] _) _) _ _).
    + vm_compute. discriminate.
    + split; [cbn; tauto | discriminate].
    + vm_compute. reflexivity.
  - refine (proj1 (proj2 (proj2 (vswitch_execution_error_degrades
                                   (host_answering (result_of 0 "")) Json.loads
                                   "sw0" "private" ∅ [] _))) _ _).
    + vm_compute. discriminate.
    + vm_compute. reflexivity.
Defined.

Lemma add_external_vswitch_requires_interface_witness :
  add_vswitch (host_answering (result_of 0 "")) Json.loads (Some "sw0") (Some "external") ∅ []
  = (Raise (SaltInvocationError "no interface name specified for external vswitch"), []).
Proof.
  apply (add_external_vswitch_requires_interface
           (host_answering (result_of 0 "")) Json.loads "sw0" ∅ []).
  - vm_compute. discriminate.
  - reflexivity.
Defined.

Lemma add_vswitch_invalid_argument_iff_witness :
  (∃ msg, fst (add_vswitch (host_answering (result_of 0 "")) Json.loads
                 (Some "sw0") (Some "bridged") ∅ [])
          = Raise (SaltInvocationError msg))
  ∧ ∀ msg, fst (add_vswitch (host_answering (result_of 0 "")) Json.loads
                  (Some "sw0") (Some "internal") ∅ [])
           ≠ Raise (SaltInvocationError msg).
Proof.
  split.
  - apply (proj1 (add_vswitch_invalid_argument_iff
                    (host_answering (result_of 0 "")) Json.loads
                    (Some "sw0") (Some "bridged") ∅ [])).
    right; right; left. intros s [= <-]. cbn. intuition discriminate.
  - apply (proj2 (add_vswitch_invalid_argument_iff
                    (host_answering (result_of 0 "")) Json.loads
                    (Some "sw0") (Some "internal") ∅ []) "sw0" "internal").
    + reflexivity.
    + reflexivity.
    + split; [vm_compute; discriminate |]. split; [cbn; tauto | discriminate].
Defined.

Lemma set_netadapter_nothing_requested_witness :
  set_netadapter (host_answering (result_of 0 "")) Json.loads
    (PyStr "00-00-00-00-00-00") "mac" ∅ []
  = (Return (PyBool false), []).
Proof.
  apply (set_netadapter_nothing_requested
           (host_answering (result_of 0 "")) Json.loads (PyStr "00-00-00-00-00-00") "mac" ∅ []).
  - cbn. tauto.
  - reflexivity.
  - reflexivity.
Defined.

Lemma set_netadapter_unsupported_selector_witness :
  set_netadapter (host_answering (result_of 0 "")) Json.loads
    (PyStr "Ethernet 5") "guid" {["name" := PyStr "vnic0"]} []
  = (Raise (SaltInvocationError "tgt_type guid is not allowed"), []).
Proof.
  apply (set_netadapter_unsupported_selector
           (host_answering (result_of 0 "")) Json.loads (PyStr "Ethernet 5") "guid"
           {["name" := PyStr "vnic0"]} []).
  cbn. intuition discriminate.
Defined.

Lemma unresolvable_interpreter_reported_as_success_witness :
  _psrun bare_host Json.loads "Get-VM" true [] = (Return PyNone, [probe])
  ∧ add_vswitch bare_host Json.loads (Some "sw0") (Some "external")
      {["interface" := PyStr "Ethernet"]} []
    = (Return true, [probe])
  ∧ remove_vswitch bare_host Json.loads (Some "sw0") ∅ [] = (Return true, [probe]).
Proof.
  destruct (unresolvable_interpreter_reported_as_success bare_host Json.loads [] eq_refl)
    as (Hrun & Hadd & Hremove & _).
  split; [apply Hrun |]. split.
  - apply Hadd. split; [vm_compute; discriminate |]. split; [cbn; tauto |].
    intros _. by eexists.
  - apply Hremove. vm_compute. discriminate.
Defined.
